(** * dominion/tasks.py: the build task

    A shallow embedding of [src/dominion/tasks.py]: the worker configuration
    ([ConfigBootstep]), the descriptor handoff loop ([_pass_fd]), the user
    lookup and notification helpers, and the two branches of [build] after
    [pty.fork()]: the child, which assembles the environment of the builder
    and replaces itself with [sh run.sh], and the parent, which prepares the
    workspace, releases the child, waits for it and cleans up.

    Python dictionaries are finite maps ([gmap string string]); [None] is
    [option]'s [None]; the operating system is a record of answers ([Host])
    together with a mutable state ([State]) that the parent threads through
    its calls and in which every system call leaves an [Event]. *)

From Stdlib Require Import ZArith String Ascii List.
From stdpp Require Import base option list strings gmap pretty.

Open Scope Z_scope.

Module Dominion.

(** ** Python values of the image specification *)

(** An entry of [image['users']]: the code reads [user['username']] and
    [user['password']]. *)
Record UserSpec := {
  username : string;
  password : string;
}.

(** [image['target']]: the code reads [target['device']] and
    [target['distro']]. *)
Record Target := {
  device : string;
  distro : string;
}.

(** The [image] argument of [build].  A field that may be [None] in Python is
    an [option]; for [target] the value [None] also stands for the empty
    dictionary, which the code treats the same way ([if target:]). *)
Record Image := {
  image_id : string;                                (* image['id'] *)
  selected_packages : option (list string);
  root_password : option string;
  users : option (list UserSpec);
  target : option Target;
  configuration : option (gmap string string);
}.

(** Python truthiness of the values the code tests with [if]. *)
Definition truthy_str (s : option string) : bool :=
  match s with
  | Some (String _ _) => true
  | _ => false
  end.

(** [str(x)] for a value that is a string or [None], as [str.format] renders
    it. *)
Definition py_str (s : option string) : string :=
  match s with
  | Some x => x
  | None => "None"
  end.

(** The line feed of the Python literals ['...\n']. *)
Definition LF : string := String (ascii_of_nat 10) EmptyString.

(** ** Worker configuration *)

(** [app.conf]: the keys the module uses hold strings. *)
Definition ConfigBootstep
    (base_system builder_location workspace : option string)
    (conf : gmap string string) : gmap string string :=
  let conf :=
    if truthy_str base_system
    then <["BASE_SYSTEM" := py_str base_system]> conf else conf in
  let conf :=
    if truthy_str builder_location
    then <["BUILDER_LOCATION" := py_str builder_location]> conf else conf in
  if truthy_str workspace
  then <["WORKSPACE" := py_str workspace]> conf
  else <["WORKSPACE" := "/tmp/dominion"]> conf.

(** [app.conf.get(key, dflt)]. *)
Definition conf_get (conf : gmap string string) (key dflt : string) : string :=
  default dflt (conf !! key).

Definition MAGIC_PHRASE : string := "Let's wind up".

(** ** The names [build] computes before it forks *)

Record Locals := {
  build_id : string;
  packages_list : list string;
  base_system : string;
  builder_location : string;
  workspace : option string;
  target_dir : string;
  intermediate_dir : string;
}.

Definition locals (conf : gmap string string) (image : Image) : Locals :=
  let build_id := image_id image in
  let packages_list := default [] (selected_packages image) in
  let base_system := conf_get conf "BASE_SYSTEM" "./jessie-armhf" in
  let builder_location := conf_get conf "BUILDER_LOCATION" "./rpi2-gen-image" in
  let workspace := conf !! "WORKSPACE" in
  let target_dir := py_str workspace +:+ "/" +:+ build_id in
  let intermediate_dir := target_dir +:+ "/" +:+ "intermediate" in
  {| build_id := build_id;
     packages_list := packages_list;
     base_system := base_system;
     builder_location := builder_location;
     workspace := workspace;
     target_dir := target_dir;
     intermediate_dir := intermediate_dir |}.

(** ** The child: the environment of the builder *)

Definition allowed : list string :=
  [ "HOSTNAME"; "DEFLOCAL"; "TIMEZONE"; "ENABLE_REDUCE"; "REDUCE_APT";
    "REDUCE_DOC"; "REDUCE_MAN"; "REDUCE_VIM"; "REDUCE_BASH"; "REDUCE_HWDB";
    "REDUCE_SSHD"; "REDUCE_LOCALE" ].

(** [{k: v for k, v in configuration.items() if k in allowed}] *)
Definition filter_allowed (configuration : gmap string string)
    : gmap string string :=
  filter (λ kv, kv.1 ∈ allowed) configuration.

(** The dictionary literal [env = {...}] of the child. *)
Definition env_literal (path : string) (wsp : string) (l : Locals)
    : gmap string string :=
  let apt_includes :=
    match packages_list l with
    | [] => ""
    | _ => String.concat "," (packages_list l)
    end in
  <["APT_INCLUDES" := apt_includes]>
  (<["RPI2_BUILDER_LOCATION" := builder_location l]>
  (<["BUILD_ID" := build_id l]>
  (<["WORKSPACE_DIR" := wsp]>
  (<["IMAGE_NAME" := target_dir l]>
  (<["CHROOT_SOURCE" := intermediate_dir l]>
  (<["BASEDIR" := target_dir l]>
  (<["PATH" := path]> ∅))))))).

(** [if root_password: ...] *)
Definition env_root (image : Image) (env : gmap string string)
    : gmap string string :=
  if truthy_str (root_password image)
  then <["PASSWORD" := py_str (root_password image)]>
         (<["ENABLE_ROOT" := "true"]> env)
  else env.

(** [if target: ...] *)
Definition env_target (image : Image) (env : gmap string string)
    : gmap string string :=
  match target image with
  | Some t =>
      let model :=
        if bool_decide (device t = "Raspberry Pi 3") then "3" else "2" in
      <["RPI_MODEL" := model]> env
  | None => env
  end.

(** [if users: user = users[0]; ...] *)
Definition env_users (image : Image) (env : gmap string string)
    : gmap string string :=
  match users image with
  | Some (user :: _) =>
      <["USER_PASSWORD" := password user]>
        (<["USER_NAME" := username user]>
        (<["ENABLE_USER" := "true"]> env))
  | _ => env
  end.

(** [if configuration: ...; env.update(configuration)]: [None] and the empty
    dictionary are falsy; otherwise the entries of the filtered dictionary
    replace those of [env]. *)
Definition env_configuration (image : Image) (env : gmap string string)
    : gmap string string :=
  match configuration image with
  | Some c => if bool_decide (c = ∅) then env else filter_allowed c ∪ env
  | None => env
  end.

(** The branch [pid == 0] of [build], from the dictionary literal to
    [os.execvpe]: the environment that [sh run.sh] receives.  There is none
    when [os.environ['PATH']] raises [KeyError], and none when
    [app.conf.get('WORKSPACE')] is [None], a value [os.execvpe] refuses in an
    environment. *)
Definition build_child (environ conf : gmap string string) (image : Image)
    : option (gmap string string) :=
  let l := locals conf image in
  path ← environ !! "PATH";
  wsp ← workspace l;
  Some (env_configuration image
         (env_users image
           (env_target image
             (env_root image
               (env_literal path wsp l))))).

(** ** The operating system seen by the parent *)

Inductive Signal := SIGSTOP | SIGKILL | SIGCONT.

Inductive Errno := ENOENT | ECONNREFUSED | EEXIST | EACCES | ENOTEMPTY.

Inductive Level := DEBUG | INFO | CRITICAL.

(** What the supervisor and its handoff thread do, in the order they do it. *)
Inductive Event :=
  | EThreadStart (socket_name : string) (fd : Z)  (* thread.start() *)
  | EMakedirs (path : string)                     (* os.makedirs(path) *)
  | EKill (pid : Z) (sig : Signal)                (* os.kill(pid, sig) *)
  | EPopen (command_line : list string)           (* subprocess.Popen(...) *)
  | EProcWait (status : Z)                        (* proc.wait() returned *)
  | EWrite (fd : Z) (data : string)               (* os.write(fd, data) *)
  | EWaitpid (pid : Z) (status : Z)               (* os.waitpid returned *)
  | ERmtree (path : string)                       (* shutil.rmtree(path) *)
  | ELog (level : Level) (msg : string)           (* LOGGER.<level>(msg) *)
  | EFirmwareSave (name : string) (user_id : Z)   (* firmware.save() *)
  | EEmailUser (user_id : Z) (subject message : string)
  | EConnect (socket_name : string)               (* sock.connect(...) *)
  | ESleep (seconds : Z)                          (* time.sleep(...) *)
  | ESendFds (fd : Z).                            (* dominion.util.send_fds *)

Global Instance Signal_eq_dec : EqDecision Signal.
Proof. solve_decision. Defined.

Global Instance Errno_eq_dec : EqDecision Errno.
Proof. solve_decision. Defined.

Global Instance Level_eq_dec : EqDecision Level.
Proof. solve_decision. Defined.

Global Instance Event_eq_dec : EqDecision Event.
Proof. solve_decision. Defined.

(** The answers of the world outside the supervisor during one job. *)
Record Host := {
  fork_pid : Z;                      (* pid returned by pty.fork() *)
  fork_fd : Z;                       (* master descriptor returned with it *)
  makedirs_errno : option Errno;     (* a failure of os.makedirs other than
                                        the directory existing *)
  cp_status : Z;                     (* what proc.wait() returns *)
  builder_status : Z;                (* the status os.waitpid returns *)
  builder_dirs : list string;        (* directories the launched process has
                                        left behind when it is reaped *)
  rmtree_errno : option Errno;       (* a failure inside shutil.rmtree *)
  user_table : gmap Z bool;          (* User.objects: id to
                                        userprofile.email_notifications *)
  connects : nat → option Errno;     (* the n-th sock.connect: None when it
                                        succeeds, the errno when it raises *)
}.

(** The part of the world the supervisor changes: the directories that exist
    and the log of its actions, oldest first. *)
Record State := {
  fs : gset string;
  trace : list Event;
}.

Inductive Exn :=
  | OSError (errno : Errno)
  | TypeError.

Inductive Result (A : Type) :=
  | Ok (a : A)
  | Raise (e : Exn).
Arguments Ok {A} a.
Arguments Raise {A} e.

(** A computation of the parent: it changes the state and returns or
    raises. *)
Definition M (A : Type) : Type := State → Result A * State.

Definition ret {A} (a : A) : M A := λ st, (Ok a, st).

Definition raise {A} (e : Exn) : M A := λ st, (Raise e, st).

Definition bind {A B} (m : M A) (k : A → M B) : M B :=
  λ st,
    match m st with
    | (Ok a, st') => k a st'
    | (Raise e, st') => (Raise e, st')
    end.

Notation "x <- m ;; k" := (bind m (λ x, k))
  (at level 100, m at next level, right associativity).
Notation "m ;; k" := (bind m (λ _, k))
  (at level 100, right associativity).

(** [try: m except OSError: handler] *)
Definition try_except_OSError (m handler : M unit) : M unit :=
  λ st,
    match m st with
    | (Raise (OSError _), st') => handler st'
    | r => r
    end.

Definition emit (e : Event) : M unit :=
  λ st, (Ok tt, {| fs := fs st; trace := trace st ++ [e] |}).

Definition set_fs (f : gset string → gset string) : M unit :=
  λ st, (Ok tt, {| fs := f (fs st); trace := trace st |}).

Definition get_fs : M (gset string) := λ st, (Ok (fs st), st).

(** [path] is [dir] or lies below it. *)
Definition inside (dir path : string) : Prop :=
  path = dir ∨ String.prefix (dir +:+ "/") path = true.

Global Instance inside_dec dir path : Decision (inside dir path).
Proof. unfold inside. apply _. Defined.

(** [os.makedirs(path)]: [FileExistsError] when the directory exists. *)
Definition makedirs (h : Host) (path : string) : M unit :=
  emit (EMakedirs path) ;;
  dirs <- get_fs ;;
  if bool_decide (path ∈ dirs) then raise (OSError EEXIST)
  else
    match makedirs_errno h with
    | Some e => raise (OSError e)
    | None => set_fs (λ dirs, {[path]} ∪ dirs)
    end.

(** [proc = subprocess.Popen(['cp', '-r', src, dst]); proc.wait()]: when the
    copy exits with 0 the destination exists. *)
Definition popen_wait (h : Host) (command_line : list string) (dst : string)
    : M Z :=
  emit (EPopen command_line) ;;
  (if bool_decide (cp_status h = 0)
   then set_fs (λ dirs, {[dst]} ∪ dirs) else ret tt) ;;
  emit (EProcWait (cp_status h)) ;;
  ret (cp_status h).

Definition kill (pid : Z) (sig : Signal) : M unit := emit (EKill pid sig).

Definition os_write (fd : Z) (data : string) : M unit := emit (EWrite fd data).

Definition log (level : Level) (msg : string) : M unit :=
  emit (ELog level msg).

(** [os.waitpid(pid, 0)]: returns once the launched process has terminated,
    with whatever it created on disk. *)
Definition waitpid (h : Host) (pid : Z) : M Z :=
  set_fs (λ dirs, list_to_set (builder_dirs h) ∪ dirs) ;;
  emit (EWaitpid pid (builder_status h)) ;;
  ret (builder_status h).

(** [shutil.rmtree(path)]: raises when [path] does not exist or when the
    removal fails on the way; otherwise nothing at or below [path] is left. *)
Definition rmtree (h : Host) (path : string) : M unit :=
  emit (ERmtree path) ;;
  dirs <- get_fs ;;
  if bool_decide (path ∈ dirs) then
    match rmtree_errno h with
    | Some e => raise (OSError e)
    | None => set_fs (filter (λ p, ¬ inside path p))
    end
  else raise (OSError ENOENT).

(** ** [_pass_fd] *)

(** One turn of the [while True] loop whose [sock.connect] raised [OSError]
    with errno [e]: the two [if]s on [e.errno], then [time.sleep(1)]. *)
Definition failed_attempt (socket_name : string) (e : Errno) : list Event :=
  [EConnect socket_name]
  ++ (if bool_decide (e = ENOENT)
      then [ELog DEBUG "The socket does not exist"] else [])
  ++ (if bool_decide (e = ECONNREFUSED)
      then [ELog DEBUG "Connection refused"] else [])
  ++ [ESleep 1].

(** The thread body, run for at most [fuel] turns of the loop starting at
    connection attempt number [attempt].  [None]: the loop is still running
    after [fuel] turns.  [Some evs]: the thread has terminated having done
    [evs]. *)
Fixpoint _pass_fd (fuel : nat) (connect : nat → option Errno) (attempt : nat)
    (socket_name : string) (fd : Z) : option (list Event) :=
  match fuel with
  | O => None
  | S fuel' =>
      match connect attempt with
      | Some e =>
          rest ← _pass_fd fuel' connect (S attempt) socket_name fd;
          Some (failed_attempt socket_name e ++ rest)
      | None => Some [EConnect socket_name; ESendFds fd]
      end
  end.

(** ** [_get_user] and [_send_email_notification] *)

(** The user object is represented by what the module reads from it,
    [user.userprofile.email_notifications]. *)
Definition _get_user (h : Host) (user_id : Z) : M (option bool) :=
  match user_table h !! user_id with
  | Some user => ret (Some user)
  | None =>
      log CRITICAL ("User " +:+ pretty user_id +:+ " does not exist") ;;
      ret None
  end.

Definition _send_email_notification (h : Host) (user_id : Z)
    (subject message : string) : M unit :=
  user <- _get_user h user_id ;;
  match user with
  | Some email_notifications =>
      if email_notifications
      then emit (EEmailUser user_id subject message)
      else ret tt
  | None => ret tt
  end.

(** ** The parent *)

(** [image['target']['distro']]: subscripting [None] raises [TypeError]. *)
Definition target_distro (image : Image) : M string :=
  match target image with
  | Some t => ret (distro t)
  | None => raise TypeError
  end.

(** The branch [else:  # parent] of [build]. *)
Definition build_parent (h : Host) (conf : gmap string string)
    (user_id : Z) (image : Image) : M Z :=
  let l := locals conf image in
  let pid := fork_pid h in
  let fd := fork_fd h in
  let socket_name := "/tmp/" +:+ build_id l in
  emit (EThreadStart socket_name fd) ;;
  try_except_OSError
    (makedirs h (target_dir l))
    (kill pid SIGKILL ;;
     log CRITICAL ("The directory " +:+ target_dir l +:+ " already exists")) ;;
  let command_line := ["cp"; "-r"; base_system l; intermediate_dir l] in
  status <- popen_wait h command_line (intermediate_dir l) ;;
  (if bool_decide (status ≠ 0)
   then
     kill pid SIGKILL ;;
     log CRITICAL ("Cannot copy " +:+ base_system l +:+ " to "
                   +:+ intermediate_dir l)
   else ret tt) ;;
  os_write fd ("Start building..." +:+ LF) ;;
  kill pid SIGCONT ;;
  retcode <- waitpid h pid ;;
  rmtree h (target_dir l) ;;
  os_write fd MAGIC_PHRASE ;;
  sm <- (if bool_decide (retcode = 0)
         then
           user <- _get_user h user_id ;;
           match user with
           | Some _ =>
               emit (EFirmwareSave (build_id l) user_id) ;;
               d <- target_distro image ;;
               ret (d +:+ " has built!",
                    "You can directly download it from Dashboard: "
                    +:+ "https://cusdeb.com/dashboard/")
           | None => ret ("", "")
           end
         else
           log CRITICAL ("Build failed: " +:+ build_id l) ;;
           os_write fd ("Build process failed" +:+ LF) ;;
           d <- target_distro image ;;
           ret (d +:+ " build has failed!",
                "Sorry, something went wrong. Cusdeb team has been "
                +:+ "informed about the situation.")) ;;
  (if truthy_str (Some sm.1) && truthy_str (Some sm.2)
   then _send_email_notification h user_id sm.1 sm.2
   else ret tt) ;;
  ret retcode.

(** ** [build] *)

(** One call of the task: what the launched process would execute the
    builder with, what the task returns or raises, and the state it leaves. *)
Record Job := {
  builder_env : option (gmap string string);
  outcome : Result Z;
  final : State;
}.

Definition build (h : Host) (environ conf : gmap string string)
    (user_id : Z) (image : Image) (st : State) : Job :=
  let l := locals conf image in
  let r := (log INFO ("intermediate: " +:+ intermediate_dir l) ;;
            build_parent h conf user_id image) st in
  {| builder_env := build_child environ conf image;
     outcome := r.1;
     final := r.2 |}.

(** ** Observations on a trace *)

(** The data written to descriptor [fd], in order. *)
Definition pty_stream (fd : Z) (tr : list Event) : list string :=
  omap (λ e, match e with
             | EWrite fd' data => if bool_decide (fd' = fd) then Some data else None
             | _ => None
             end) tr.

(** The signals sent to [pid], in order. *)
Definition signals (pid : Z) (tr : list Event) : list Signal :=
  omap (λ e, match e with
             | EKill pid' sig => if bool_decide (pid' = pid) then Some sig else None
             | _ => None
             end) tr.

(** ** Record updates used to compare two jobs *)

Definition with_users (us : option (list UserSpec)) (image : Image) : Image :=
  {| image_id := image_id image;
     selected_packages := selected_packages image;
     root_password := root_password image;
     users := us;
     target := target image;
     configuration := configuration image |}.

Definition with_configuration (c : option (gmap string string))
    (image : Image) : Image :=
  {| image_id := image_id image;
     selected_packages := selected_packages image;
     root_password := root_password image;
     users := users image;
     target := target image;
     configuration := c |}.

(** The keys the child sets by itself: the dictionary literal, then the
    conditional assignments. *)
Definition literal_keys : list string :=
  [ "PATH"; "BASEDIR"; "CHROOT_SOURCE"; "IMAGE_NAME"; "WORKSPACE_DIR";
    "BUILD_ID"; "RPI2_BUILDER_LOCATION"; "APT_INCLUDES" ].

Definition conditional_keys : list string :=
  [ "ENABLE_ROOT"; "PASSWORD"; "RPI_MODEL"; "ENABLE_USER"; "USER_NAME";
    "USER_PASSWORD" ].

(** ** A concrete job

    The image specification of the end-to-end scenario, on a worker started
    with [--workspace /var/dominion/workspace]. *)

Module Scenario.

Definition bob : UserSpec := {| username := "bob"; password := "y" |}.

Definition eve : UserSpec := {| username := "eve"; password := "s3cret" |}.

Definition image : Image :=
  {| image_id := "abc123";
     selected_packages := Some ["vim"];
     root_password := Some "x";
     users := Some [bob];
     target := Some {| device := "Raspberry Pi 3"; distro := "TestOS" |};
     configuration := Some (<["HOSTNAME" := "h1"]> {["BAD" := "z"]}) |}.

Definition conf : gmap string string :=
  ConfigBootstep None None (Some "/var/dominion/workspace") ∅.

Definition environ : gmap string string :=
  {["PATH" := "/usr/bin:/bin"]}.

(** The same image with a second user after the first. *)
Definition image_two_users : Image := with_users (Some [bob; eve]) image.

(** A host on which everything succeeds, the builder ends with wait status
    [status], and the removal of the workspace answers [rm]. *)
Definition host (status : Z) (rm : option Errno) : Host :=
  {| fork_pid := 4242;
     fork_fd := 5;
     makedirs_errno := None;
     cp_status := 0;
     builder_status := status;
     builder_dirs := ["/var/dominion/workspace/abc123/build"];
     rmtree_errno := rm;
     user_table := {[ 1 := true ]};
     connects := λ _, Some ENOENT |}.

(** Before the job only the workspace exists. *)
Definition fresh : State :=
  {| fs := {["/var/dominion/workspace"]}; trace := [] |}.

(** The directory of the job is already there. *)
Definition taken : State :=
  {| fs := {["/var/dominion/workspace"; "/var/dominion/workspace/abc123"]};
     trace := [] |}.

End Scenario.

(** ** Observations on the trace of one job *)

(** The events one call of [build] adds to the trace. *)
Definition job_events (st : State) (j : Job) : list Event :=
  drop (length (trace st)) (trace (final j)).

(** The firmware records saved, as (name, user id). *)
Definition saved_firmwares (tr : list Event) : list (string * Z) :=
  omap (λ e, match e with
             | EFirmwareSave name user_id => Some (name, user_id)
             | _ => None
             end) tr.

(** The emails sent, as (user id, subject, message). *)
Definition emails (tr : list Event) : list (Z * string * string) :=
  omap (λ e, match e with
             | EEmailUser user_id subject message =>
                 Some (user_id, subject, message)
             | _ => None
             end) tr.

(** The handoff threads started, as (socket name, descriptor). *)
Definition thread_starts (tr : list Event) : list (string * Z) :=
  omap (λ e, match e with
             | EThreadStart socket_name fd => Some (socket_name, fd)
             | _ => None
             end) tr.

(** The descriptors sent, the sleeps and the connection attempts of a run of
    [_pass_fd]. *)
Definition sent_fds (tr : list Event) : list Z :=
  omap (λ e, match e with ESendFds fd => Some fd | _ => None end) tr.

Definition sleeps (tr : list Event) : list Z :=
  omap (λ e, match e with ESleep s => Some s | _ => None end) tr.

Definition connect_attempts (tr : list Event) : list string :=
  omap (λ e, match e with EConnect name => Some name | _ => None end) tr.

(** ** The branches of the parent, spelled out *)

(** [os.kill(pid, signal.SIGKILL)] and the critical log line of a failed
    preparation step. *)
Definition kill_log (failed : bool) (pid : Z) (msg : string) : list Event :=
  if failed then [EKill pid SIGKILL; ELog CRITICAL msg] else [].

Definition success_message : string :=
  "You can directly download it from Dashboard: "
  +:+ "https://cusdeb.com/dashboard/".

Definition failure_message : string :=
  "Sorry, something went wrong. Cusdeb team has been "
  +:+ "informed about the situation.".

Definition no_user_line (user_id : Z) : string :=
  "User " +:+ pretty user_id +:+ " does not exist".

(** The ways the parent ends once [shutil.rmtree] has been called: the events
    after the call and what the task returns or raises. *)
Inductive Ending (h : Host) (user_id : Z) (image : Image) (l : Locals)
    : list Event → Result Z → Prop :=
  | rmtree_raises e :
      rmtree_errno h = Some e ∨ e = ENOENT →
      Ending h user_id image l [] (Raise (OSError e))
  | built_unknown_user :
      builder_status h = 0 → user_table h !! user_id = None →
      Ending h user_id image l
        [EWrite (fork_fd h) MAGIC_PHRASE;
         ELog CRITICAL (no_user_line user_id)]
        (Ok (builder_status h))
  | built_no_target n :
      builder_status h = 0 → user_table h !! user_id = Some n →
      target image = None →
      Ending h user_id image l
        [EWrite (fork_fd h) MAGIC_PHRASE;
         EFirmwareSave (build_id l) user_id]
        (Raise TypeError)
  | built_notified t :
      builder_status h = 0 → user_table h !! user_id = Some true →
      target image = Some t →
      Ending h user_id image l
        [EWrite (fork_fd h) MAGIC_PHRASE;
         EFirmwareSave (build_id l) user_id;
         EEmailUser user_id (distro t +:+ " has built!") success_message]
        (Ok (builder_status h))
  | built_silent t :
      builder_status h = 0 → user_table h !! user_id = Some false →
      target image = Some t →
      Ending h user_id image l
        [EWrite (fork_fd h) MAGIC_PHRASE;
         EFirmwareSave (build_id l) user_id]
        (Ok (builder_status h))
  | failed_no_target :
      builder_status h ≠ 0 → target image = None →
      Ending h user_id image l
        [EWrite (fork_fd h) MAGIC_PHRASE;
         ELog CRITICAL ("Build failed: " +:+ build_id l);
         EWrite (fork_fd h) ("Build process failed" +:+ LF)]
        (Raise TypeError)
  | failed_unknown_user t :
      builder_status h ≠ 0 → target image = Some t →
      user_table h !! user_id = None →
      Ending h user_id image l
        [EWrite (fork_fd h) MAGIC_PHRASE;
         ELog CRITICAL ("Build failed: " +:+ build_id l);
         EWrite (fork_fd h) ("Build process failed" +:+ LF);
         ELog CRITICAL (no_user_line user_id)]
        (Ok (builder_status h))
  | failed_notified t :
      builder_status h ≠ 0 → target image = Some t →
      user_table h !! user_id = Some true →
      Ending h user_id image l
        [EWrite (fork_fd h) MAGIC_PHRASE;
         ELog CRITICAL ("Build failed: " +:+ build_id l);
         EWrite (fork_fd h) ("Build process failed" +:+ LF);
         EEmailUser user_id (distro t +:+ " build has failed!")
           failure_message]
        (Ok (builder_status h))
  | failed_silent t :
      builder_status h ≠ 0 → target image = Some t →
      user_table h !! user_id = Some false →
      Ending h user_id image l
        [EWrite (fork_fd h) MAGIC_PHRASE;
         ELog CRITICAL ("Build failed: " +:+ build_id l);
         EWrite (fork_fd h) ("Build process failed" +:+ LF)]
        (Ok (builder_status h)).

(** ** The directory [ConfigBootstep] creates *)

(** [os.makedirs(app.conf['WORKSPACE'])] runs only in the [else] branch of
    [if workspace:], and only when the default workspace does not exist. *)
Definition ConfigBootstep_dirs (workspace : option string)
    (dirs : gset string) : gset string :=
  if truthy_str workspace then dirs
  else if bool_decide ("/tmp/dominion" ∈ dirs) then dirs
       else {["/tmp/dominion"]} ∪ dirs.

(** ** More concrete inputs *)

Module Cases.

(** The consumer starts listening after two refused attempts. *)
Definition third_time_lucky (attempt : nat) : option Errno :=
  match attempt with
  | 0%nat => Some ENOENT
  | 1%nat => Some ECONNREFUSED
  | _ => None
  end.

(** Nobody ever listens. *)
Definition nobody_listens (attempt : nat) : option Errno := Some ENOENT.

(** An image whose configuration holds no allow-listed key. *)
Definition image_bad_configuration : Image :=
  with_configuration (Some {["BAD" := "z"]}) Scenario.image.

(** Another image, with another identifier. *)
Definition other_image : Image :=
  {| image_id := "def456";
     selected_packages := None;
     root_password := None;
     users := None;
     target := None;
     configuration := None |}.

End Cases.

(** ** The environment of the builder *)

Section Environment.

Implicit Types (env c : gmap string string) (image : Image) (k v : string).

Lemma filter_allowed_lookup_Some c k v :
  filter_allowed c !! k = Some v ↔ c !! k = Some v ∧ k ∈ allowed.
Proof. unfold filter_allowed. by rewrite map_lookup_filter_Some. Qed.

Lemma filter_allowed_lookup_None c k :
  k ∉ allowed → filter_allowed c !! k = None.
Proof.
  intros Hk. unfold filter_allowed. apply map_lookup_filter_None_2.
  right. intros x _ Hin. by apply Hk.
Qed.

(** The merge of the configuration leaves every key outside the allow-list
    as it was. *)
Lemma env_configuration_other image env k :
  k ∉ allowed → env_configuration image env !! k = env !! k.
Proof.
  intros Hk. unfold env_configuration.
  destruct (configuration image) as [c|]; [|done].
  case_bool_decide; [done|].
  rewrite lookup_union_r; [done|]. by apply filter_allowed_lookup_None.
Qed.

(** An allow-listed key of the configuration is bound to the caller's
    value. *)
Lemma env_configuration_allowed image env c k v :
  configuration image = Some c → c !! k = Some v → k ∈ allowed →
  env_configuration image env !! k = Some v.
Proof.
  intros Hc Hk Hin. unfold env_configuration. rewrite Hc.
  case_bool_decide as Hempty.
  - subst c. by rewrite lookup_empty in Hk.
  - apply lookup_union_Some_l. by apply filter_allowed_lookup_Some.
Qed.

(** A key bound after the merge was bound before it or is allow-listed. *)
Lemma env_configuration_dom image env k :
  is_Some (env_configuration image env !! k) →
  is_Some (env !! k) ∨ k ∈ allowed.
Proof.
  unfold env_configuration.
  destruct (configuration image) as [c|]; [|by left].
  case_bool_decide; [by left|].
  intros [v Hv]. apply lookup_union_Some_raw in Hv as [Hv|[_ Hv]].
  - right. by apply filter_allowed_lookup_Some in Hv as [_ ?].
  - left. by exists v.
Qed.

(** What [build_child] returns when it returns an environment. *)
Lemma build_child_Some environ conf image env :
  build_child environ conf image = Some env →
  ∃ path wsp,
    environ !! "PATH" = Some path ∧ conf !! "WORKSPACE" = Some wsp ∧
    env = env_configuration image
            (env_users image
              (env_target image
                (env_root image
                  (env_literal path wsp (locals conf image))))).
Proof.
  unfold build_child. cbn [workspace locals].
  destruct (environ !! "PATH") as [path|]; [|done].
  destruct (conf !! "WORKSPACE") as [wsp|]; [|done].
  cbn. intros [= <-]. by exists path, wsp.
Qed.


End Environment.

(** Lookup of a literal key in a tower of inserts. *)
Ltac env_lookup :=
  unfold env_users, env_target, env_root, env_literal;
  repeat case_match;
  repeat (first [ rewrite lookup_insert_eq
                | rewrite lookup_insert_ne by done
                | rewrite lookup_empty ]);
  try done.

(** Membership in a list of string literals, by evaluation. *)
Ltac by_decide :=
  match goal with
  | |- ?P => apply (@bool_decide_unpack P _); vm_compute; exact I
  end.

Section BuilderEnvironment.

Context (h : Host) (environ conf : gmap string string) (user_id : Z)
        (st : State).

(** C10.  When the target record is truthy, [RPI_MODEL] is ["3"] if its
    device is exactly ["Raspberry Pi 3"] and ["2"] for any other device; when
    the target record is absent or empty, [RPI_MODEL] is not set. *)
Theorem rpi_model_of_target image env :
  builder_env (build h environ conf user_id image st) = Some env →
  (∀ t, target image = Some t → device t = "Raspberry Pi 3" →
        env !! "RPI_MODEL" = Some "3") ∧
  (∀ t, target image = Some t → device t ≠ "Raspberry Pi 3" →
        env !! "RPI_MODEL" = Some "2") ∧
  (target image = None → env !! "RPI_MODEL" = None).
Proof.
  cbn [build builder_env]. intros Henv.
  apply build_child_Some in Henv as (path & wsp & _ & _ & ->).
  rewrite env_configuration_other by by_decide.
  repeat split.
  - intros t Ht Hd. unfold env_users, env_target. rewrite Ht, Hd.
    repeat case_match; cbn;
      repeat (first [rewrite lookup_insert_eq | rewrite lookup_insert_ne by done]);
      done.
  - intros t Ht Hd. unfold env_users, env_target. rewrite Ht.
    rewrite bool_decide_eq_false_2 by done.
    repeat case_match;
      repeat (first [rewrite lookup_insert_eq | rewrite lookup_insert_ne by done]);
      done.
  - intros Ht. unfold env_users, env_target. rewrite Ht. env_lookup.
Qed.

(** C6.  With a non-empty users list the environment has [ENABLE_USER=true]
    and the name and password of the first entry, and it is the environment
    of the job whose list holds that entry alone: the later entries leave no
    trace in it.  With an empty or absent list none of the three keys is
    set. *)
Theorem first_user_only image env :
  builder_env (build h environ conf user_id image st) = Some env →
  (∀ user rest, users image = Some (user :: rest) →
     env !! "ENABLE_USER" = Some "true" ∧
     env !! "USER_NAME" = Some (username user) ∧
     env !! "USER_PASSWORD" = Some (password user) ∧
     builder_env (build h environ conf user_id
                    (with_users (Some [user]) image) st) = Some env) ∧
  (users image = Some [] ∨ users image = None →
     env !! "ENABLE_USER" = None ∧
     env !! "USER_NAME" = None ∧
     env !! "USER_PASSWORD" = None).
Proof.
  cbn [build builder_env]. intros Henv.
  apply build_child_Some in Henv as (path & wsp & Hp & Hw & ->).
  split.
  - intros user rest Hu.
    rewrite !env_configuration_other by by_decide.
    split_and!.
    + unfold env_users. rewrite Hu. env_lookup.
    + unfold env_users. rewrite Hu. env_lookup.
    + unfold env_users. rewrite Hu. env_lookup.
    + unfold build_child. cbn [workspace locals]. rewrite Hp, Hw. cbn.
      do 2 f_equal. unfold env_users. cbn [users with_users].
      by rewrite Hu.
  - intros Hu. rewrite !env_configuration_other by by_decide.
    unfold env_users. destruct Hu as [-> | ->]; repeat split; env_lookup.
Qed.

(** C5.  Of the caller's configuration only allow-listed keys reach the
    environment: a key outside the allow-list is bound exactly as in the job
    without any configuration, so it is unbound unless the child sets it
    itself, and [EVIL_KEY] is never bound; an allow-listed key of the
    configuration is bound to the caller's value, so [HOSTNAME: "foo"] gives
    [HOSTNAME=foo]. *)
Theorem configuration_allow_list image env :
  builder_env (build h environ conf user_id image st) = Some env →
  (∀ k, k ∉ allowed →
     Some (env !! k) =
       (λ env0, env0 !! k) <$>
         builder_env (build h environ conf user_id
                        (with_configuration None image) st)) ∧
  (∀ k, k ∉ allowed → k ∉ literal_keys → k ∉ conditional_keys →
     env !! k = None) ∧
  env !! "EVIL_KEY" = None ∧
  (∀ c k v, configuration image = Some c → c !! k = Some v → k ∈ allowed →
     env !! k = Some v) ∧
  (∀ c, configuration image = Some c → c !! "HOSTNAME" = Some "foo" →
     env !! "HOSTNAME" = Some "foo").
Proof.
  cbn [build builder_env]. intros Henv.
  apply build_child_Some in Henv as (path & wsp & Hp & Hw & ->).
  assert (Hnone : ∀ k, k ∉ allowed → k ∉ literal_keys →
                       k ∉ conditional_keys →
    env_configuration image
      (env_users image (env_target image (env_root image
        (env_literal path wsp (locals conf image))))) !! k = None).
  { intros k Ha Hl Hc. rewrite env_configuration_other by done.
    unfold literal_keys in Hl. unfold conditional_keys in Hc.
    rewrite !not_elem_of_cons in Hl. rewrite !not_elem_of_cons in Hc.
    destruct_and!.
    unfold env_users, env_target, env_root, env_literal.
    repeat case_match;
      repeat (rewrite lookup_insert_ne by done); apply lookup_empty. }
  repeat split.
  - intros k Hk. unfold build_child. cbn [workspace locals].
    rewrite Hp, Hw. cbn. f_equal.
    by rewrite env_configuration_other.
  - done.
  - apply Hnone; by_decide.
  - intros c k v Hc Hk Hin. by eapply env_configuration_allowed.
  - intros c Hc Hk. eapply env_configuration_allowed; [done..|by_decide].
Qed.

(** C7, as the code has it.  The environment binds the eight keys of the
    dictionary literal, the builder location under [RPI2_BUILDER_LOCATION],
    and every key it binds is one of these, a conditional key or an
    allow-listed key. *)
Theorem fixed_keys_of_environment image env :
  builder_env (build h environ conf user_id image st) = Some env →
  let l := locals conf image in
  env !! "PATH" = environ !! "PATH" ∧
  env !! "BASEDIR" = Some (target_dir l) ∧
  env !! "CHROOT_SOURCE" = Some (intermediate_dir l) ∧
  env !! "IMAGE_NAME" = Some (target_dir l) ∧
  env !! "WORKSPACE_DIR" = workspace l ∧
  env !! "BUILD_ID" = Some (image_id image) ∧
  env !! "RPI2_BUILDER_LOCATION" = Some (builder_location l) ∧
  env !! "APT_INCLUDES" =
    Some (String.concat "," (default [] (selected_packages image))) ∧
  env !! "BUILDER_LOCATION" = None ∧
  (∀ k, is_Some (env !! k) →
        k ∈ literal_keys ∨ k ∈ conditional_keys ∨ k ∈ allowed).
Proof.
  intros Henv l. cbn [build builder_env] in Henv.
  apply build_child_Some in Henv as (path & wsp & Hp & Hw & ->).
  rewrite !env_configuration_other by by_decide.
  rewrite Hp. subst l. cbn [workspace locals]. rewrite Hw.
  repeat split; try by env_lookup.
  - unfold env_users, env_target, env_root, env_literal.
    cbn [packages_list locals].
    destruct (selected_packages image) as [[|pkg pkgs]|]; cbn [default];
      repeat case_match;
      repeat (first [ rewrite lookup_insert_eq
                    | rewrite lookup_insert_ne by done ]); done.
  - intros k Hk. apply env_configuration_dom in Hk as [Hk|Hk]; [|by auto].
    destruct (decide (k ∈ literal_keys)) as [|Hl]; [by auto|].
    destruct (decide (k ∈ conditional_keys)) as [|Hc]; [by auto|].
    exfalso. unfold literal_keys in Hl. unfold conditional_keys in Hc.
    rewrite !not_elem_of_cons in Hl. rewrite !not_elem_of_cons in Hc.
    destruct_and!. revert Hk.
    unfold env_users, env_target, env_root, env_literal.
    repeat case_match;
      repeat (rewrite lookup_insert_ne by done); rewrite lookup_empty;
      by intros [? ?].
Qed.

End BuilderEnvironment.

Lemma rpi_model_of_target_witness :
  ∃ env,
    builder_env (build (Scenario.host 0 None) Scenario.environ Scenario.conf 1
                   Scenario.image Scenario.fresh) = Some env ∧
    env !! "RPI_MODEL" = Some "3".
Proof.
  eexists. split; [reflexivity|].
  eapply (rpi_model_of_target (Scenario.host 0 None) Scenario.environ
            Scenario.conf 1 Scenario.fresh Scenario.image);
    reflexivity.
Defined.

Lemma first_user_only_witness :
  ∃ env,
    builder_env (build (Scenario.host 0 None) Scenario.environ Scenario.conf
                   1 Scenario.image_two_users Scenario.fresh) = Some env ∧
    env !! "USER_NAME" = Some "bob" ∧
    env !! "USER_PASSWORD" = Some "y" ∧
    builder_env (build (Scenario.host 0 None) Scenario.environ Scenario.conf
                   1 Scenario.image Scenario.fresh) = Some env.
Proof.
  eexists. split; [reflexivity|].
  destruct (first_user_only (Scenario.host 0 None) Scenario.environ
              Scenario.conf 1 Scenario.fresh Scenario.image_two_users _
              eq_refl) as [Hfirst _].
  destruct (Hfirst Scenario.bob [Scenario.eve] eq_refl)
    as (_ & Hname & Hpass & Hsame).
  split; [exact Hname|]. split; [exact Hpass|]. exact Hsame.
Defined.

Lemma configuration_allow_list_witness :
  ∃ env,
    builder_env (build (Scenario.host 0 None) Scenario.environ Scenario.conf
                   1 Scenario.image Scenario.fresh) = Some env ∧
    env !! "BAD" = None ∧
    env !! "HOSTNAME" = Some "h1".
Proof.
  eexists. split; [reflexivity|].
  destruct (configuration_allow_list (Scenario.host 0 None) Scenario.environ
              Scenario.conf 1 Scenario.fresh Scenario.image _ eq_refl)
    as (_ & Hdrop & _ & Hkeep & _).
  split.
  - apply Hdrop; by_decide.
  - eapply Hkeep; [reflexivity|reflexivity|by_decide].
Defined.

(** C7, as the spec has it, fails: in the environment of the scenario no key
    [BUILDER_LOCATION] is bound; the builder location is the value of
    [RPI2_BUILDER_LOCATION]. *)
Lemma builder_location_key_absent :
  ∃ env,
    builder_env (build (Scenario.host 0 None) Scenario.environ Scenario.conf
                   1 Scenario.image Scenario.fresh) = Some env ∧
    env !! "BUILDER_LOCATION" = None ∧
    env !! "RPI2_BUILDER_LOCATION" = Some "./rpi2-gen-image".
Proof. eexists. split; [reflexivity|]. split; reflexivity. Qed.

Lemma fixed_keys_of_environment_witness :
  ∃ env,
    builder_env (build (Scenario.host 0 None) Scenario.environ Scenario.conf
                   1 Scenario.image Scenario.fresh) = Some env ∧
    env !! "PATH" = Some "/usr/bin:/bin" ∧
    env !! "BASEDIR" = Some "/var/dominion/workspace/abc123" ∧
    env !! "RPI2_BUILDER_LOCATION" = Some "./rpi2-gen-image" ∧
    env !! "APT_INCLUDES" = Some "vim".
Proof.
  eexists. split; [reflexivity|].
  destruct (fixed_keys_of_environment (Scenario.host 0 None)
              Scenario.environ Scenario.conf 1 Scenario.fresh Scenario.image
              _ eq_refl)
    as (Hpath & Hbase & _ & _ & _ & _ & Hloc & Hapt & _).
  split; [exact Hpath|]. split; [exact Hbase|]. split; [exact Hloc|].
  exact Hapt.
Defined.


(** ** Strings and paths *)



Lemma inside_self dir : inside dir dir.
Proof. by left. Qed.


Lemma truthy_str_app d s :
  truthy_str (Some s) = true → truthy_str (Some (d +:+ s)) = true.
Proof. by destruct d. Qed.

Lemma truthy_str_empty : truthy_str (Some "") = false.
Proof. reflexivity. Qed.

Lemma flag_bool_decide (b : bool) (P : Prop) `{!Decision P} :
  (b = true ↔ P) → bool_decide P = b.
Proof.
  intros Hb. destruct b.
  - apply bool_decide_eq_true_2. by apply Hb.
  - apply bool_decide_eq_false_2. intros HP. by apply Hb in HP.
Qed.

(** ** One run of the parent *)

(** Symbolic execution of [build]: unfold the monad, then split on the
    innermost test that is stuck, so that no branch is visited twice. *)
Ltac tidy_parent :=
  cbn [fst snd fs trace];
  rewrite ?truthy_str_app by reflexivity;
  rewrite ?truthy_str_empty;
  cbn [andb fst snd fs trace].

Ltac step_parent :=
  match goal with
  | |- context [match ?x with _ => _ end] =>
      lazymatch x with
      | context [match _ with _ => _ end] => fail
      | bool_decide ?P => destruct (bool_decide_reflect P)
      | _ => destruct x eqn:?
      end
  end; tidy_parent.

Ltac run_parent :=
  cbv [job_events build build_parent bind ret raise try_except_OSError
       makedirs popen_wait kill os_write log waitpid rmtree emit set_fs
       get_fs _get_user _send_email_notification target_distro outcome final
       builder_env];
  tidy_parent;
  repeat step_parent;
  rewrite <- ?app_assoc; rewrite ?drop_app_length; cbn [app];
  try contradiction.

Ltac decide_flag :=
  split;
  [ intros ?;
    first [ done | by left | by right | by right; eexists | congruence ]
  | intros ?;
    first [ done
          | exfalso;
            repeat match goal with
                   | H : _ ∨ _ |- _ => destruct H
                   | H : is_Some _ |- _ => destruct H
                   end; congruence ] ].

Ltac decide_dirs :=
  split_and!;
  [ intros ? ? Hout;
    first [ apply elem_of_filter; split; [exact Hout|] | idtac ];
    rewrite !elem_of_union, elem_of_list_to_set; tauto
  | intros ?; rewrite ?elem_of_filter, !elem_of_union, ?elem_of_list_to_set,
      ?elem_of_singleton; tauto
  | first [ intros Hne; by destruct Hne
          | intros _ ? ? Hin; apply elem_of_filter in Hin as [Hout _];
            by apply Hout ]
  | first [ intros Hne; by destruct Hne | by intros _ ] ].

Ltac finish_run b1 b2 :=
  exists b1; exists b2; eexists;
  (split; [solve [decide_flag]|]);
  (split; [solve [decide_flag]|]);
  (split; [reflexivity|]);
  (split; [solve [econstructor; eauto]|]);
  solve [decide_dirs].

Lemma parent_run_aux h environ conf user_id image st evs res dirs :
  job_events st (build h environ conf user_id image st) = evs →
  outcome (build h environ conf user_id image st) = res →
  fs (final (build h environ conf user_id image st)) = dirs →
  ∃ mk_failed cp_failed rest,
    (mk_failed = true ↔
       target_dir (locals conf image) ∈ fs st ∨
       is_Some (makedirs_errno h)) ∧
    (cp_failed = true ↔ cp_status h ≠ 0) ∧
    evs =
      [ELog INFO ("intermediate: " +:+ intermediate_dir (locals conf image));
       EThreadStart ("/tmp/" +:+ build_id (locals conf image)) (fork_fd h);
       EMakedirs (target_dir (locals conf image))] ++
      kill_log mk_failed (fork_pid h)
        ("The directory " +:+ target_dir (locals conf image)
         +:+ " already exists") ++
      [EPopen ["cp"; "-r"; base_system (locals conf image);
               intermediate_dir (locals conf image)];
       EProcWait (cp_status h)] ++
      kill_log cp_failed (fork_pid h)
        ("Cannot copy " +:+ base_system (locals conf image) +:+ " to "
         +:+ intermediate_dir (locals conf image)) ++
      [EWrite (fork_fd h) ("Start building..." +:+ LF);
       EKill (fork_pid h) SIGCONT;
       EWaitpid (fork_pid h) (builder_status h);
       ERmtree (target_dir (locals conf image))] ++ rest ∧
    Ending h user_id image (locals conf image) rest res ∧
    (∀ p, p ∈ fs st ∨ p ∈ builder_dirs h →
          ¬ inside (target_dir (locals conf image)) p → p ∈ dirs) ∧
    (∀ p, p ∈ dirs →
          p ∈ fs st ∨ p ∈ builder_dirs h ∨
          p = intermediate_dir (locals conf image) ∨
          p = target_dir (locals conf image)) ∧
    (rest ≠ [] →
       ∀ p, inside (target_dir (locals conf image)) p → p ∉ dirs) ∧
    (rest ≠ [] → rmtree_errno h = None).
Proof.
  revert evs res dirs. run_parent.
  all: intros ? ? ? <- <- <-.
  all: first
    [ finish_run false false | finish_run false true
    | finish_run true false | finish_run true true ].
Qed.

(** Every run of the parent: the events up to [shutil.rmtree] with the two
    preparation steps that may have failed, the way it ends, and the
    directories it leaves. *)
Lemma parent_run h environ conf user_id image st :
  ∃ mk_failed cp_failed rest,
    (mk_failed = true ↔
       target_dir (locals conf image) ∈ fs st ∨
       is_Some (makedirs_errno h)) ∧
    (cp_failed = true ↔ cp_status h ≠ 0) ∧
    job_events st (build h environ conf user_id image st) =
      [ELog INFO ("intermediate: " +:+ intermediate_dir (locals conf image));
       EThreadStart ("/tmp/" +:+ build_id (locals conf image)) (fork_fd h);
       EMakedirs (target_dir (locals conf image))] ++
      kill_log mk_failed (fork_pid h)
        ("The directory " +:+ target_dir (locals conf image)
         +:+ " already exists") ++
      [EPopen ["cp"; "-r"; base_system (locals conf image);
               intermediate_dir (locals conf image)];
       EProcWait (cp_status h)] ++
      kill_log cp_failed (fork_pid h)
        ("Cannot copy " +:+ base_system (locals conf image) +:+ " to "
         +:+ intermediate_dir (locals conf image)) ++
      [EWrite (fork_fd h) ("Start building..." +:+ LF);
       EKill (fork_pid h) SIGCONT;
       EWaitpid (fork_pid h) (builder_status h);
       ERmtree (target_dir (locals conf image))] ++ rest ∧
    Ending h user_id image (locals conf image) rest
      (outcome (build h environ conf user_id image st)) ∧
    (∀ p, p ∈ fs st ∨ p ∈ builder_dirs h →
          ¬ inside (target_dir (locals conf image)) p →
          p ∈ fs (final (build h environ conf user_id image st))) ∧
    (∀ p, p ∈ fs (final (build h environ conf user_id image st)) →
          p ∈ fs st ∨ p ∈ builder_dirs h ∨
          p = intermediate_dir (locals conf image) ∨
          p = target_dir (locals conf image)) ∧
    (rest ≠ [] →
       ∀ p, inside (target_dir (locals conf image)) p →
            p ∉ fs (final (build h environ conf user_id image st))) ∧
    (rest ≠ [] → rmtree_errno h = None).
Proof. by apply (parent_run_aux h environ conf user_id image st). Qed.

Ltac use_run h environ conf uid image st :=
  destruct (parent_run h environ conf uid image st)
    as (mk & cp & rest & Hmk & Hcp & Hev & Hend & Hkeep & Hnew & Hgone
        & Hrm).

(** Where an event sits in a list given as [pre ++ e :: post]. *)
Ltac split_trace :=
  repeat match goal with
         | H : _ = ?p ++ _ :: _ |- _ =>
             is_var p; destruct p as [|? p]; cbn [app] in H; simplify_eq
         end.


(** ** The parent: signals, pty stream, outcome and directories *)

Section Supervisor.

Context (h : Host) (environ conf : gmap string string) (user_id : Z)
        (image : Image) (st : State).

(** X1.  The signals the parent sends to the launched process are, in
    order: [SIGKILL] if [os.makedirs] raised, [SIGKILL] if the copy exited
    non-zero, and then always [SIGCONT]: a failed preparation kills the
    process and the release still follows. *)
Theorem signals_of_job :
  signals (fork_pid h)
    (job_events st (build h environ conf user_id image st)) =
    (if bool_decide (target_dir (locals conf image) ∈ fs st ∨
                     is_Some (makedirs_errno h))
     then [SIGKILL] else []) ++
    (if bool_decide (cp_status h ≠ 0) then [SIGKILL] else []) ++
    [SIGCONT].
Proof.
  use_run h environ conf user_id image st.
  rewrite (flag_bool_decide _ _ Hmk), (flag_bool_decide _ _ Hcp), Hev.
  destruct mk, cp, Hend; cbn [kill_log app signals omap list_omap];
    rewrite ?bool_decide_eq_true_2 by done; reflexivity.
Qed.

(** X2.  Wherever [SIGCONT] occurs among the events of a job, the call of
    [os.makedirs] on the target directory and then the start and the wait of
    [cp -r base_system intermediate_dir] come before it, and no signal is
    sent after it. *)
Theorem release_after_preparation pre post :
  job_events st (build h environ conf user_id image st) =
    pre ++ EKill (fork_pid h) SIGCONT :: post →
  (∃ p1 p2 p3,
     pre = p1 ++ EMakedirs (target_dir (locals conf image)) :: p2 ++
           EPopen ["cp"; "-r"; base_system (locals conf image);
                   intermediate_dir (locals conf image)]
           :: EProcWait (cp_status h) :: p3) ∧
  signals (fork_pid h) post = [].
Proof.
  use_run h environ conf user_id image st.
  rewrite Hev. clear Hev.
  destruct mk, cp, Hend; cbn [kill_log app]; intros Hsplit; split_trace.
  all: split;
    [ eexists [_; _];
      first [ eexists []; eexists; reflexivity
            | eexists [_; _]; eexists; reflexivity ]
    | reflexivity ].
Qed.

(** X3.  What the parent writes to the pty master is the banner alone when
    [shutil.rmtree] raises, the banner and the magic phrase when the wait
    status is 0, and the banner, the magic phrase and then the failure line
    when it is not. *)
Theorem pty_stream_of_job :
  (pty_stream (fork_fd h)
     (job_events st (build h environ conf user_id image st)) =
     ["Start building..." +:+ LF] ∧
   ∃ e, outcome (build h environ conf user_id image st)
        = Raise (OSError e)) ∨
  (pty_stream (fork_fd h)
     (job_events st (build h environ conf user_id image st)) =
     ["Start building..." +:+ LF; MAGIC_PHRASE] ∧
   builder_status h = 0) ∨
  (pty_stream (fork_fd h)
     (job_events st (build h environ conf user_id image st)) =
     ["Start building..." +:+ LF; MAGIC_PHRASE;
      "Build process failed" +:+ LF] ∧
   builder_status h ≠ 0).
Proof.
  use_run h environ conf user_id image st. rewrite Hev.
  destruct mk, cp, Hend; cbn [kill_log app pty_stream omap list_omap];
    rewrite ?bool_decide_eq_true_2 by done; eauto 6.
Qed.




(** X7.  A failure inside [shutil.rmtree] is not caught: the task raises an
    [OSError], the call of [rmtree] is the last thing it did, and the pty
    has received the banner only. *)
Theorem rmtree_failure_propagates e :
  rmtree_errno h = Some e →
  (∃ e', outcome (build h environ conf user_id image st)
         = Raise (OSError e')) ∧
  last (job_events st (build h environ conf user_id image st)) =
    Some (ERmtree (target_dir (locals conf image))) ∧
  pty_stream (fork_fd h)
    (job_events st (build h environ conf user_id image st)) =
    ["Start building..." +:+ LF].
Proof.
  use_run h environ conf user_id image st. intros He.
  assert (rest = []) as ->.
  { destruct rest; [done|]. rewrite Hrm in He; done. }
  inversion Hend; subst. rewrite Hev. split; [by eexists|].
  destruct mk, cp; cbn [kill_log app pty_stream omap list_omap];
    rewrite ?bool_decide_eq_true_2 by done; done.
Qed.

(** X8.  When the target directory already exists, the parent kills the
    launched process, still runs the copy and sends [SIGCONT], and, if the
    task returns, it has removed the directory that was there before. *)
Theorem taken_directory_is_removed rc :
  target_dir (locals conf image) ∈ fs st →
  outcome (build h environ conf user_id image st) = Ok rc →
  (∃ kills,
     signals (fork_pid h)
       (job_events st (build h environ conf user_id image st)) =
       SIGKILL :: kills ++ [SIGCONT]) ∧
  EPopen ["cp"; "-r"; base_system (locals conf image);
          intermediate_dir (locals conf image)]
    ∈ job_events st (build h environ conf user_id image st) ∧
  rc = builder_status h ∧
  target_dir (locals conf image)
    ∉ fs (final (build h environ conf user_id image st)).
Proof.
  use_run h environ conf user_id image st. intros Htaken Hok.
  assert (rest ≠ []) as Hne by (destruct Hend; done).
  assert (mk = true) as -> by (apply Hmk; by left).
  split_and!.
  - rewrite Hev.
    destruct cp, Hend; cbn [kill_log app signals omap list_omap];
      rewrite ?bool_decide_eq_true_2 by done;
      first [ by exists [] | by exists [SIGKILL] ].
  - rewrite Hev. cbn [kill_log app]. rewrite !elem_of_cons. auto 8.
  - destruct Hend; congruence.
  - intros Hin. eapply Hgone; [done| |done]. apply inside_self.
Qed.

(** X9.  A firmware record is saved at most once, under the build
    identifier and for the requesting user, and exactly when the wait status
    is 0, the user exists and [shutil.rmtree] did not raise; in particular
    never for a failed build. *)
Theorem firmware_saved :
  (saved_firmwares
     (job_events st (build h environ conf user_id image st)) =
     [(image_id image, user_id)] ∧
   builder_status h = 0 ∧ is_Some (user_table h !! user_id) ∧
   ∀ e, outcome (build h environ conf user_id image st)
        ≠ Raise (OSError e)) ∨
  (saved_firmwares
     (job_events st (build h environ conf user_id image st)) = [] ∧
   (builder_status h ≠ 0 ∨ user_table h !! user_id = None ∨
    ∃ e, outcome (build h environ conf user_id image st)
         = Raise (OSError e))).
Proof.
  use_run h environ conf user_id image st. rewrite Hev.
  destruct mk, cp, Hend; cbn [kill_log app saved_firmwares omap list_omap];
    eauto 10.
Qed.

(** X10.  An email is sent only when the task returns and the user exists
    with notifications enabled; then exactly one is sent, to the requesting
    user, with the subject ["<distro> has built!"] for wait status 0 and
    ["<distro> build has failed!"] otherwise. *)
Theorem email_sent :
  emails (job_events st (build h environ conf user_id image st)) =
    match outcome (build h environ conf user_id image st),
          user_table h !! user_id, target image with
    | Ok _, Some true, Some t =>
        if bool_decide (builder_status h = 0)
        then [(user_id, distro t +:+ " has built!", success_message)]
        else [(user_id, distro t +:+ " build has failed!", failure_message)]
    | _, _, _ => []
    end.
Proof.
  use_run h environ conf user_id image st. rewrite Hev.
  destruct mk, cp, Hend; cbn [kill_log app emails omap list_omap];
    repeat match goal with H : _ = _ |- _ => rewrite H end;
    rewrite ?bool_decide_eq_true_2, ?bool_decide_eq_false_2 by done;
    try done.
Qed.

End Supervisor.

(** X11.  Every job starts the handoff thread exactly once, on the socket
    name ["/tmp/" + build id] and with the master descriptor of its own fork;
    two jobs of one worker with different identifiers have different socket
    names and different target directories. *)
Theorem handoff_socket_per_job
    h1 h2 environ1 environ2 conf user1 user2 image1 image2 st1 st2 :
  thread_starts
    (job_events st1 (build h1 environ1 conf user1 image1 st1)) =
    [("/tmp/" +:+ image_id image1, fork_fd h1)] ∧
  (image_id image1 ≠ image_id image2 →
   target_dir (locals conf image1) ≠ target_dir (locals conf image2) ∧
   (thread_starts
      (job_events st1 (build h1 environ1 conf user1 image1 st1))).*1 ≠
   (thread_starts
      (job_events st2 (build h2 environ2 conf user2 image2 st2))).*1).
Proof.
  assert (∀ h environ user image st,
    thread_starts (job_events st (build h environ conf user image st)) =
    [("/tmp/" +:+ image_id image, fork_fd h)]) as Hstart.
  { intros h environ user image st.
    use_run h environ conf user image st. rewrite Hev.
    by destruct mk, cp, Hend. }
  split; [apply Hstart|]. intros Hid. split.
  - cbn [target_dir locals]. intros Heq. apply Hid.
    by do 2 apply String.app_inj in Heq.
  - rewrite !Hstart. cbn [fmap list_fmap fst]. intros [= Heq]. apply Hid.
    by apply String.app_inj in Heq.
Qed.


(** ** The handoff loop *)

Section PassFd.

Context (connect : nat → option Errno) (socket_name : string) (fd : Z).

Lemma failed_attempt_observed e :
  sent_fds (failed_attempt socket_name e) = [] ∧
  sleeps (failed_attempt socket_name e) = [1] ∧
  connect_attempts (failed_attempt socket_name e) = [socket_name].
Proof. by destruct e. Qed.

(** X12.  If the connection attempts fail with the errnos [errs], whatever
    they are, and the next one succeeds, the thread terminates as soon as it
    is given more turns than there are failures: it has retried after every
    failure, slept one second each time, logged only "socket does not exist"
    and "connection refused", and sent the descriptor once, at the end. *)
Theorem pass_fd_retries errs fuel attempt :
  (∀ i e, errs !! i = Some e → connect (attempt + i)%nat = Some e) →
  connect (attempt + length errs)%nat = None →
  (length errs < fuel)%nat →
  _pass_fd fuel connect attempt socket_name fd =
    Some (concat (failed_attempt socket_name <$> errs)
          ++ [EConnect socket_name; ESendFds fd]).
Proof.
  revert fuel attempt.
  induction errs as [|e errs IH]; intros fuel attempt Hfail Hok Hfuel.
  - destruct fuel as [|fuel]; [lia|]. cbn [_pass_fd].
    rewrite Nat.add_0_r in Hok. by rewrite Hok.
  - destruct fuel as [|fuel]; [cbn in Hfuel; lia|]. cbn [_pass_fd].
    specialize (Hfail 0%nat e eq_refl) as Hhead.
    rewrite Nat.add_0_r in Hhead. rewrite Hhead.
    rewrite (IH fuel (S attempt)).
    + cbn [mbind option_bind]. rewrite fmap_cons. cbn [concat].
      by rewrite <- app_assoc.
    + intros i e' Hi. rewrite <- (Hfail (S i) e' Hi). f_equal. lia.
    + rewrite <- Hok. f_equal. cbn. lia.
    + cbn in Hfuel. lia.
Qed.

(** X13.  There is no retry limit: as long as every connection attempt
    fails, the thread is still in its loop after any number of turns, and it
    has not sent the descriptor. *)
Theorem pass_fd_never_gives_up fuel attempt :
  (∀ i, is_Some (connect (attempt + i)%nat)) →
  _pass_fd fuel connect attempt socket_name fd = None.
Proof.
  revert attempt. induction fuel as [|fuel IH]; intros attempt Hfail; [done|].
  cbn [_pass_fd].
  destruct (Hfail 0%nat) as [e He]. rewrite Nat.add_0_r in He. rewrite He.
  rewrite IH; [done|].
  intros i. replace (S attempt + i)%nat with (attempt + S i)%nat by lia.
  apply Hfail.
Qed.

(** X14.  A thread that has terminated made its first successful connection
    at some attempt [n] after [n] failures; it sent the descriptor exactly
    once, as its last action, slept exactly [n] times, one second each, and
    connected [n + 1] times, always to the same socket name. *)
Theorem pass_fd_terminated fuel attempt evs :
  _pass_fd fuel connect attempt socket_name fd = Some evs →
  ∃ n,
    (n < fuel)%nat ∧
    connect (attempt + n)%nat = None ∧
    (∀ i, (i < n)%nat → is_Some (connect (attempt + i)%nat)) ∧
    sent_fds evs = [fd] ∧
    last evs = Some (ESendFds fd) ∧
    sleeps evs = replicate n 1 ∧
    connect_attempts evs = replicate (S n) socket_name.
Proof.
  revert attempt evs.
  induction fuel as [|fuel IH]; intros attempt evs Hrun; [done|].
  cbn [_pass_fd] in Hrun.
  destruct (connect attempt) as [e|] eqn:He.
  - destruct (_pass_fd fuel connect (S attempt) socket_name fd)
      as [rest|] eqn:Hrest; [|done].
    assert (evs = failed_attempt socket_name e ++ rest) as ->
      by (cbn [mbind option_bind] in Hrun; congruence).
    clear Hrun.
    destruct (IH _ _ Hrest)
      as (n & Hn & Hok & Hfail & Hsent & Hlast & Hsl & Hco).
    destruct (failed_attempt_observed e) as (Hs1 & Hs2 & Hs3).
    exists (S n). split_and!.
    + lia.
    + rewrite <- Hok. f_equal. lia.
    + intros [|i] Hi.
      * rewrite Nat.add_0_r. by rewrite He.
      * replace (attempt + S i)%nat with (S attempt + i)%nat by lia.
        apply Hfail. lia.
    + unfold sent_fds in *. by rewrite omap_app, Hs1, Hsent.
    + rewrite last_app, Hlast. done.
    + unfold sleeps in *. by rewrite omap_app, Hs2, Hsl.
    + unfold connect_attempts in *. by rewrite omap_app, Hs3, Hco.
  - injection Hrun as <-. exists 0%nat.
    rewrite Nat.add_0_r. split_and!; try done; lia.
Qed.

End PassFd.

(** ** The worker configuration *)

Section Bootstep.

Context (base builder wsp : option string) (conf0 : gmap string string).

(** X15.  After the bootstep [WORKSPACE] is always set, whatever the
    configuration held before.  A non-empty [--workspace] is taken as it is
    and no directory is created for it; without one, or with an empty one,
    the workspace is [/tmp/dominion], which exists afterwards, and no
    directory has disappeared. *)
Theorem bootstep_workspace dirs :
  (∀ w, wsp = Some w → w ≠ "" →
        ConfigBootstep base builder wsp conf0 !! "WORKSPACE" = Some w ∧
        ConfigBootstep_dirs wsp dirs = dirs) ∧
  (wsp = None ∨ wsp = Some "" →
        ConfigBootstep base builder wsp conf0 !! "WORKSPACE"
        = Some "/tmp/dominion" ∧
        "/tmp/dominion" ∈ ConfigBootstep_dirs wsp dirs ∧
        dirs ⊆ ConfigBootstep_dirs wsp dirs).
Proof.
  unfold ConfigBootstep, ConfigBootstep_dirs. split.
  - intros w -> Hw. destruct w as [|a w]; [done|]. cbn [truthy_str py_str].
    by rewrite lookup_insert_eq.
  - intros [-> | ->]; cbn [truthy_str]; rewrite lookup_insert_eq;
      (split; [done|]); case_bool_decide; set_solver.
Qed.


End Bootstep.

(** ** More on the environment of the builder *)

Section ChildEnvironment.

Context (h : Host) (environ conf : gmap string string) (user_id : Z)
        (st : State).

(** X17.  A non-empty root password sets [ENABLE_ROOT=true] and [PASSWORD]
    to it; an absent or empty one sets neither key, and no configuration can
    set them. *)
Theorem root_password_keys image env :
  builder_env (build h environ conf user_id image st) = Some env →
  (∀ pw, root_password image = Some pw → pw ≠ "" →
     env !! "ENABLE_ROOT" = Some "true" ∧ env !! "PASSWORD" = Some pw) ∧
  (root_password image = None ∨ root_password image = Some "" →
     env !! "ENABLE_ROOT" = None ∧ env !! "PASSWORD" = None).
Proof.
  cbn [build builder_env]. intros Henv.
  apply build_child_Some in Henv as (path & w & _ & _ & ->).
  rewrite !env_configuration_other by by_decide. split.
  - intros pw Hpw Hne. destruct pw as [|a pw]; [done|].
    unfold env_root. rewrite Hpw. cbn [truthy_str py_str].
    split; env_lookup.
  - intros Hpw. unfold env_root.
    destruct Hpw as [-> | ->]; cbn [truthy_str]; split; env_lookup.
Qed.

(** X18.  A configuration none of whose keys is allow-listed changes
    nothing: the builder gets the environment of the same job without
    configuration. *)
Theorem configuration_without_allowed_keys image c :
  configuration image = Some c →
  (∀ k, is_Some (c !! k) → k ∉ allowed) →
  builder_env (build h environ conf user_id image st) =
  builder_env (build h environ conf user_id
                 (with_configuration None image) st).
Proof.
  intros Hc Hkeys. cbn [build builder_env]. unfold build_child.
  cbn [workspace locals].
  destruct (environ !! "PATH") as [path|]; [|done].
  destruct (conf !! "WORKSPACE") as [w|]; [|done].
  cbn. f_equal. unfold env_configuration at 1. rewrite Hc.
  case_bool_decide; [done|].
  assert (filter_allowed c = ∅) as ->.
  { apply map_eq. intros k. rewrite lookup_empty.
    apply map_lookup_filter_None_2.
    destruct (c !! k) as [v|] eqn:Hk; [right|by left].
    intros v' _ Hin. by apply (Hkeys k). }
  by rewrite (left_id_L ∅ (∪)).
Qed.

End ChildEnvironment.

(** ** The notification helper *)



(** ** The theorems at concrete jobs *)

Lemma release_after_preparation_witness :
  ∃ p1 p2 p3,
    take 6 (job_events Scenario.fresh
              (build (Scenario.host 0 None) Scenario.environ Scenario.conf 1
                 Scenario.image Scenario.fresh)) =
    p1 ++ EMakedirs "/var/dominion/workspace/abc123" :: p2 ++
    EPopen ["cp"; "-r"; "./jessie-armhf";
            "/var/dominion/workspace/abc123/intermediate"]
    :: EProcWait 0 :: p3.
Proof.
  apply (release_after_preparation (Scenario.host 0 None) Scenario.environ
           Scenario.conf 1 Scenario.image Scenario.fresh
           (take 6 (job_events Scenario.fresh
              (build (Scenario.host 0 None) Scenario.environ Scenario.conf 1
                 Scenario.image Scenario.fresh)))
           (drop 7 (job_events Scenario.fresh
              (build (Scenario.host 0 None) Scenario.environ Scenario.conf 1
                 Scenario.image Scenario.fresh)))).
  vm_compute. reflexivity.
Defined.



Lemma rmtree_failure_propagates_witness :
  pty_stream 5
    (job_events Scenario.fresh
       (build (Scenario.host 0 (Some EACCES)) Scenario.environ Scenario.conf
          1 Scenario.image Scenario.fresh)) =
    ["Start building..." +:+ LF].
Proof.
  apply (rmtree_failure_propagates (Scenario.host 0 (Some EACCES))
           Scenario.environ Scenario.conf 1 Scenario.image Scenario.fresh
           EACCES).
  reflexivity.
Defined.

Lemma taken_directory_is_removed_witness :
  "/var/dominion/workspace/abc123"
    ∉ fs (final (build (Scenario.host 9 None) Scenario.environ Scenario.conf
                   1 Scenario.image Scenario.taken)).
Proof.
  apply (taken_directory_is_removed (Scenario.host 9 None) Scenario.environ
           Scenario.conf 1 Scenario.image Scenario.taken 9).
  - by_decide.
  - vm_compute. reflexivity.
Defined.

Lemma handoff_socket_per_job_witness :
  target_dir (locals Scenario.conf Scenario.image) ≠
  target_dir (locals Scenario.conf Cases.other_image).
Proof.
  apply (handoff_socket_per_job (Scenario.host 0 None) (Scenario.host 0 None)
           Scenario.environ Scenario.environ Scenario.conf 1 1
           Scenario.image Cases.other_image Scenario.fresh Scenario.fresh).
  intros H. discriminate H.
Defined.

Lemma pass_fd_retries_witness :
  _pass_fd 3 Cases.third_time_lucky 0 "/tmp/abc123" 5 =
    Some [EConnect "/tmp/abc123"; ELog DEBUG "The socket does not exist";
          ESleep 1;
          EConnect "/tmp/abc123"; ELog DEBUG "Connection refused";
          ESleep 1;
          EConnect "/tmp/abc123"; ESendFds 5].
Proof.
  apply (pass_fd_retries Cases.third_time_lucky "/tmp/abc123" 5
           [ENOENT; ECONNREFUSED] 3 0).
  - intros [|[|i]] e He; cbn in He;
      first [ injection He as <-; reflexivity | discriminate He ].
  - reflexivity.
  - cbn. lia.
Defined.

Lemma pass_fd_never_gives_up_witness :
  _pass_fd 1000 Cases.nobody_listens 0 "/tmp/abc123" 5 = None.
Proof.
  apply (pass_fd_never_gives_up Cases.nobody_listens "/tmp/abc123" 5 1000 0).
  intros i. exists ENOENT. reflexivity.
Defined.

Lemma pass_fd_terminated_witness :
  ∃ n, (n < 5)%nat ∧ Cases.third_time_lucky (0 + n) = None.
Proof.
  destruct (pass_fd_terminated Cases.third_time_lucky "/tmp/abc123" 5 5 0 _
              eq_refl) as (n & Hn & Hok & _).
  exists n. split; assumption.
Defined.

Lemma bootstep_workspace_witness :
  ConfigBootstep None None None ∅ !! "WORKSPACE" = Some "/tmp/dominion" ∧
  "/tmp/dominion" ∈ ConfigBootstep_dirs None ∅.
Proof.
  destruct (bootstep_workspace None None None ∅ ∅) as [_ Hdefault].
  destruct (Hdefault (or_introl eq_refl)) as (Hw & Hdir & _).
  split; assumption.
Defined.


Lemma root_password_keys_witness :
  ∃ env,
    builder_env (build (Scenario.host 0 None) Scenario.environ Scenario.conf
                   1 Scenario.image Scenario.fresh) = Some env ∧
    env !! "ENABLE_ROOT" = Some "true" ∧ env !! "PASSWORD" = Some "x".
Proof.
  eexists. split; [reflexivity|].
  destruct (root_password_keys (Scenario.host 0 None) Scenario.environ
              Scenario.conf 1 Scenario.fresh Scenario.image _ eq_refl)
    as [Hset _].
  apply (Hset "x" eq_refl). intros H. discriminate H.
Defined.

Lemma configuration_without_allowed_keys_witness :
  builder_env (build (Scenario.host 0 None) Scenario.environ Scenario.conf 1
                 Cases.image_bad_configuration Scenario.fresh) =
  builder_env (build (Scenario.host 0 None) Scenario.environ Scenario.conf 1
                 (with_configuration None Cases.image_bad_configuration)
                 Scenario.fresh).
Proof.
  apply (configuration_without_allowed_keys (Scenario.host 0 None)
           Scenario.environ Scenario.conf 1 Scenario.fresh
           Cases.image_bad_configuration {["BAD" := "z"]}).
  - reflexivity.
  - intros k [v Hk]. apply lookup_singleton_Some in Hk as [<- _]. by_decide.
Defined.

(** ** The options of the worker in a job *)

Section BootstepOptions.

Context (base builder wsp : option string) (conf0 : gmap string string).

(** X20.  The options of the worker reach every job: the copy command is
    [cp -r <base system> <intermediate_dir>] and [RPI2_BUILDER_LOCATION] is
    the builder location, each being the non-empty option given to the
    bootstep, else the value [app.conf] already held, else the default of
    [build] (['./jessie-armhf'], ['./rpi2-gen-image']). *)
Theorem bootstep_options_reach_job h environ user_id image st :
  EPopen ["cp"; "-r";
          if truthy_str base then py_str base
          else conf_get conf0 "BASE_SYSTEM" "./jessie-armhf";
          intermediate_dir
            (locals (ConfigBootstep base builder wsp conf0) image)]
    ∈ job_events st
        (build h environ (ConfigBootstep base builder wsp conf0) user_id
           image st) ∧
  (∀ env,
     builder_env (build h environ (ConfigBootstep base builder wsp conf0)
                    user_id image st) = Some env →
     env !! "RPI2_BUILDER_LOCATION" =
       Some (if truthy_str builder then py_str builder
             else conf_get conf0 "BUILDER_LOCATION" "./rpi2-gen-image")).
Proof.
  set (conf := ConfigBootstep base builder wsp conf0).
  assert (base_system (locals conf image) =
          if truthy_str base then py_str base
          else conf_get conf0 "BASE_SYSTEM" "./jessie-armhf") as Hbase.
  { subst conf. cbn [base_system locals]. unfold conf_get, ConfigBootstep.
    destruct (truthy_str base), (truthy_str builder), (truthy_str wsp);
      repeat (first [ rewrite lookup_insert_eq
                    | rewrite lookup_insert_ne by done ]); done. }
  assert (builder_location (locals conf image) =
          if truthy_str builder then py_str builder
          else conf_get conf0 "BUILDER_LOCATION" "./rpi2-gen-image")
    as Hbuilder.
  { subst conf. cbn [builder_location locals]. unfold conf_get, ConfigBootstep.
    destruct (truthy_str base), (truthy_str builder), (truthy_str wsp);
      repeat (first [ rewrite lookup_insert_eq
                    | rewrite lookup_insert_ne by done ]); done. }
  split.
  - use_run h environ conf user_id image st.
    rewrite Hev, <- Hbase. destruct mk; cbn [kill_log app];
      rewrite !elem_of_cons; auto 8.
  - intros env Henv. cbn [build builder_env] in Henv.
    apply build_child_Some in Henv as (path & w & _ & _ & ->).
    rewrite env_configuration_other by by_decide.
    rewrite <- Hbuilder. env_lookup.
Qed.

End BootstepOptions.

Lemma bootstep_options_reach_job_witness :
  ∃ env,
    builder_env
      (build (Scenario.host 0 None) Scenario.environ
         (ConfigBootstep (Some "/srv/base") (Some "/srv/builder") None ∅)
         1 Scenario.image Scenario.fresh) = Some env ∧
    env !! "RPI2_BUILDER_LOCATION" = Some "/srv/builder".
Proof.
  eexists. split; [reflexivity|].
  destruct (bootstep_options_reach_job (Some "/srv/base")
              (Some "/srv/builder") None ∅ (Scenario.host 0 None)
              Scenario.environ 1 Scenario.image Scenario.fresh)
    as [_ Hloc].
  apply Hloc. reflexivity.
Defined.

End Dominion.
